(** * kusabira / himetake: the C demonstration programs

    A shallow embedding of

      - [src/himetake/src/unixcw_libcw_demo.c]  ([unixcw_libcw_demo_1]), and
      - [src/himetake/src/hello_world_c_2.c]    ([hello_world_c_2_fn]),

    and the properties of their call sequences and results.

    Both functions are straight-line drivers of external code (libcw, the C
    runtime, a Rust component).  The external functions are taken as
    arbitrary state transformers over an abstract world; each C function is
    a computation in a state monad over a machine that holds the world and
    the trace of the calls the function itself has made, every call recorded
    together with the value it returned. *)

From Stdlib Require Import ZArith List String Ascii Bool Lia.
From ExtLib Require Import Structures.Monad Structures.MonadState
  Data.Monads.StateMonad.
Import ListNotations MonadNotation.
Local Open Scope string_scope.
Local Open Scope monad_scope.
Local Open Scope Z_scope.

(* ===================================================================== *)
(** ** The machine shared by the two programs *)
(* ===================================================================== *)

Module Runtime.

(** An argument of a variadic [printf] call. *)
Inductive printf_arg : Type :=
| ArgStr (s : string)
| ArgInt (n : Z)
| ArgPtr (p : Z).

(** The C null pointer. *)
Definition NULL : Z := 0.

Section Machine.
Context {G E : Type}.

(** Global state [G] of the process and the trace of events [E], oldest
    event first. *)
Record machine : Type := Machine { globals : G; trace : list E }.

(** Record one event. *)
Definition emit (e : E) : state machine unit :=
  modify (fun m => Machine (globals m) (trace m ++ [e])) ;;
  ret tt.

(** Run an external function on the globals. *)
Definition extern {A : Type} (f : G -> A * G) : state machine A :=
  m <- get ;;
  let r := f (globals m) in
  put (Machine (snd r) (trace m)) ;;
  ret (fst r).

(** Keep the elements of a trace that [f] maps to something. *)
Fixpoint pick {A : Type} (f : E -> option A) (tr : list E) : list A :=
  match tr with
  | [] => []
  | e :: tr' =>
      match f e with
      | Some a => a :: pick f tr'
      | None => pick f tr'
      end
  end.
End Machine.

Arguments machine : clear implicits.

End Runtime.
Import Runtime.

(* ===================================================================== *)
(** ** unixcw_libcw_demo.c *)
(* ===================================================================== *)

Module UnixcwLibcwDemo.

(** [cw_debug_t]: the two members the demo touches. *)
Record cw_debug_t : Type := { flags : Z; level : Z }.

(** [cw_gen_config_t]: the two members the demo writes after the [memset];
    every other member stays zero. *)
Record cw_gen_config_t : Type :=
  { sound_system : Z; sound_device : list ascii }.

(** What [<libcw2.h>] and [<libcw_debug.h>] declare and the demo uses.  The
    headers are not part of the sources, so the constants are parameters. *)
Class libcw_header : Type :=
  { CW_SUCCESS : Z;
    CW_FAILURE : Z;
    CW_DEBUG_MASK : Z;
    CW_DEBUG_DEBUG : Z;
    CW_DEBUG_INFO : Z;
    CW_AUDIO_NULL : Z;
    CW_DEFAULT_NULL_DEVICE : string;
    (** [sizeof(cw_gen_config.sound_device)] *)
    sizeof_sound_device : nat }.

(** The libcw functions the demo calls, over the library's private state
    [W] (generators, tone queue, [errno]).  A generator pointer is an
    address, [NULL] when [cw_gen_new] fails; a [cw_ret_t] is an integer.
    [cw_debug_set_flags] receives a pointer to one debug object and is a
    function of that object.  The generator functions act on [W], which does
    not contain the two debug objects. *)
Class libcw (W : Type) : Type :=
  { cw_debug_set_flags : cw_debug_t -> Z -> cw_debug_t;
    cw_gen_new : cw_gen_config_t -> W -> Z * W;
    cw_gen_start : Z -> W -> Z * W;
    cw_gen_enqueue_string : Z -> string -> W -> Z * W;
    cw_gen_wait_for_queue_level : Z -> Z -> W -> Z * W;
    cw_gen_stop : Z -> W -> Z * W;
    cw_gen_delete : Z -> W -> W }.

(** The two [extern cw_debug_t] objects, by name. *)
Inductive debug_ref : Type := Ref_cw_debug_object | Ref_cw_debug_object_dev.

(** The process-wide state the demo works on. *)
Record globals (W : Type) : Type :=
  { lib : W;
    cw_debug_object : cw_debug_t;
    cw_debug_object_dev : cw_debug_t }.
Arguments lib {W}.
Arguments cw_debug_object {W}.
Arguments cw_debug_object_dev {W}.

(** The calls and stores of [unixcw_libcw_demo_1], each call with the value
    it returned. *)
Inductive event : Type :=
| Printf (fmt : string) (args : list printf_arg)
| Perror (s : string)
| FprintfStderr (fmt : string)
| DebugSetFlags (o : debug_ref) (fl : Z)
| DebugSetLevel (o : debug_ref) (lv : Z)
| GenNew (cfg : cw_gen_config_t) (gen : Z)
| GenStart (gen : Z) (cw_ret : Z)
| GenEnqueueString (gen : Z) (msg : string) (cw_ret : Z)
| GenWaitForQueueLevel (gen : Z) (lv : Z) (cw_ret : Z)
| GenStop (gen : Z) (cw_ret : Z)
| GenDelete (gen : Z).

(** The chars of a C string: those before the first zero char. *)
Fixpoint c_str (s : list ascii) : list ascii :=
  match s with
  | [] => []
  | c :: s' => if Ascii.eqb c zero then [] else c :: c_str s'
  end.

(** [strncpy(dst, src, n)] into an array of [n] chars: the chars of [src]
    up to its terminating zero, at most [n] of them, the rest of the array
    zero. *)
Definition strncpy (src : string) (n : nat) : list ascii :=
  let s := c_str (list_ascii_of_string src) in
  (firstn n s ++ repeat zero (Nat.sub n (List.length s)))%list.

Section Demo.
Context {H : libcw_header} {W : Type} {L : libcw W}.

Definition M : Type -> Type := state (machine (globals W) event).

Definition read_debug (o : debug_ref) (g : globals W) : cw_debug_t :=
  match o with
  | Ref_cw_debug_object => cw_debug_object g
  | Ref_cw_debug_object_dev => cw_debug_object_dev g
  end.

Definition write_debug (o : debug_ref) (d : cw_debug_t) (g : globals W)
  : globals W :=
  match o with
  | Ref_cw_debug_object =>
      {| lib := lib g; cw_debug_object := d;
         cw_debug_object_dev := cw_debug_object_dev g |}
  | Ref_cw_debug_object_dev =>
      {| lib := lib g; cw_debug_object := cw_debug_object g;
         cw_debug_object_dev := d |}
  end.

(** A libcw call on the library state. *)
Definition libcall {A : Type} (f : W -> A * W) : M A :=
  extern (fun g =>
    let r := f (lib g) in
    (fst r, {| lib := snd r; cw_debug_object := cw_debug_object g;
               cw_debug_object_dev := cw_debug_object_dev g |})).

Definition printf (fmt : string) (args : list printf_arg) : M unit :=
  emit (Printf fmt args).

Definition perror (s : string) : M unit := emit (Perror s).

Definition fprintf_stderr (fmt : string) : M unit :=
  emit (FprintfStderr fmt).

(** [cw_debug_set_flags(&o, fl);] *)
Definition call_cw_debug_set_flags (o : debug_ref) (fl : Z) : M unit :=
  extern (fun g => (tt, write_debug o (cw_debug_set_flags (read_debug o g) fl) g)) ;;
  emit (DebugSetFlags o fl).

(** [o.level = lv;] *)
Definition store_level (o : debug_ref) (lv : Z) : M unit :=
  extern (fun g =>
    (tt, write_debug o {| flags := flags (read_debug o g); level := lv |} g)) ;;
  emit (DebugSetLevel o lv).

Definition call_cw_gen_new (cfg : cw_gen_config_t) : M Z :=
  gen <- libcall (cw_gen_new cfg) ;;
  emit (GenNew cfg gen) ;;
  ret gen.

Definition call_cw_gen_start (gen : Z) : M Z :=
  r <- libcall (cw_gen_start gen) ;;
  emit (GenStart gen r) ;;
  ret r.

Definition call_cw_gen_enqueue_string (gen : Z) (msg : string) : M Z :=
  r <- libcall (cw_gen_enqueue_string gen msg) ;;
  emit (GenEnqueueString gen msg r) ;;
  ret r.

Definition call_cw_gen_wait_for_queue_level (gen : Z) (lv : Z) : M Z :=
  r <- libcall (cw_gen_wait_for_queue_level gen lv) ;;
  emit (GenWaitForQueueLevel gen lv r) ;;
  ret r.

Definition call_cw_gen_stop (gen : Z) : M Z :=
  r <- libcall (cw_gen_stop gen) ;;
  emit (GenStop gen r) ;;
  ret r.

(** [cw_gen_delete(&cw_gen);] the slot [cw_gen] is a local that is not
    read again. *)
Definition call_cw_gen_delete (gen : Z) : M unit :=
  libcall (fun w => (tt, cw_gen_delete gen w)) ;;
  emit (GenDelete gen).

(** The generator configuration the demo builds (lines 82-87). *)
Definition demo_config : cw_gen_config_t :=
  {| sound_system := CW_AUDIO_NULL;
     sound_device := strncpy CW_DEFAULT_NULL_DEVICE sizeof_sound_device |}.

(** The code from each label to the end of the function; [ret] is the
    value of the local [ret] on arrival. *)

(** [err0: return (ret);] *)
Definition err0 (ret_ : Z) : M Z := ret ret_.

(** [err1: cw_gen_delete(&cw_gen);] then [err0]. *)
Definition err1 (cw_gen : Z) (ret_ : Z) : M Z :=
  call_cw_gen_delete cw_gen ;;
  err0 ret_.

(** [err2: cw_ret = cw_gen_stop(cw_gen); ...] then [err1]. *)
Definition err2 (cw_gen : Z) (ret_ : Z) : M Z :=
  cw_ret <- call_cw_gen_stop cw_gen ;;
  if negb (CW_SUCCESS =? cw_ret) then
    fprintf_stderr "cw_gen_stop() failed.\n" ;;
    err1 cw_gen CW_FAILURE
  else
    err1 cw_gen ret_.

Definition unixcw_libcw_demo_1 (msg : string) : M Z :=
  let ret_ := CW_SUCCESS in
  printf "%s: starting.\n" [ArgStr "unixcw_libcw_demo_1"] ;;
  (* Enable the debug log. *)
  call_cw_debug_set_flags Ref_cw_debug_object CW_DEBUG_MASK ;;
  store_level Ref_cw_debug_object CW_DEBUG_DEBUG ;;
  call_cw_debug_set_flags Ref_cw_debug_object_dev CW_DEBUG_MASK ;;
  store_level Ref_cw_debug_object_dev CW_DEBUG_INFO ;;
  (* Configure the generator. *)
  let cw_gen_config := demo_config in
  (* Create the generator. *)
  cw_gen <- call_cw_gen_new cw_gen_config ;;
  if NULL =? cw_gen then
    perror "cw_gen_new" ;;
    err0 CW_FAILURE
  else
    (* Start the generator. *)
    cw_ret <- call_cw_gen_start cw_gen ;;
    if negb (CW_SUCCESS =? cw_ret) then
      perror "cw_gen_start" ;;
      err1 cw_gen CW_FAILURE
    else
      (* Start sending the message in the background. *)
      cw_ret <- call_cw_gen_enqueue_string cw_gen msg ;;
      if negb (CW_SUCCESS =? cw_ret) then
        perror "cw_gen_enqueue_string" ;;
        err2 cw_gen CW_FAILURE
      else
        (* Wait for the send to complete. *)
        cw_ret <- call_cw_gen_wait_for_queue_level cw_gen 0 ;;
        if negb (CW_SUCCESS =? cw_ret) then
          perror "cw_gen_wait_for_queue_level" ;;
          err2 cw_gen CW_FAILURE
        else
          err2 cw_gen ret_.

(** One invocation from the machine [m]: the returned value and the
    machine it leaves. *)
Definition invoke (msg : string) (m : machine (globals W) event)
  : Z * machine (globals W) event :=
  runState (unixcw_libcw_demo_1 msg) m.

(** An invocation in a process whose trace is empty. *)
Definition boot (g : globals W) : machine (globals W) event :=
  Machine g [].

Definition result (msg : string) (g : globals W) : Z :=
  fst (invoke msg (boot g)).

Definition calls (msg : string) (g : globals W) : list event :=
  trace (snd (invoke msg (boot g))).

(** *** Reading a trace *)

(** The generator calls, in the order of the source. *)
Inductive step : Type := Create | Start | Enqueue | Wait | Stop | Destroy.

Definition step_eq_dec (a b : step) : {a = b} + {a <> b}.
Proof. decide equality. Defined.

(** The generator call an event is, if it is one. *)
Definition attempted (e : event) : option step :=
  match e with
  | GenNew _ _ => Some Create
  | GenStart _ _ => Some Start
  | GenEnqueueString _ _ _ => Some Enqueue
  | GenWaitForQueueLevel _ _ _ => Some Wait
  | GenStop _ _ => Some Stop
  | GenDelete _ => Some Destroy
  | _ => None
  end.

(** The generator call an event is, if it is one that failed by the test
    the source applies to its result. *)
Definition failed (e : event) : option step :=
  match e with
  | GenNew _ gen => if NULL =? gen then Some Create else None
  | GenStart _ r => if CW_SUCCESS =? r then None else Some Start
  | GenEnqueueString _ _ r => if CW_SUCCESS =? r then None else Some Enqueue
  | GenWaitForQueueLevel _ _ r => if CW_SUCCESS =? r then None else Some Wait
  | GenStop _ r => if CW_SUCCESS =? r then None else Some Stop
  | _ => None
  end.

(** The generator call whose failure a diagnostic message reports. *)
Definition diagnosed (e : event) : option step :=
  match e with
  | Perror s =>
      if String.eqb s "cw_gen_new" then Some Create
      else if String.eqb s "cw_gen_start" then Some Start
      else if String.eqb s "cw_gen_enqueue_string" then Some Enqueue
      else if String.eqb s "cw_gen_wait_for_queue_level" then Some Wait
      else None
  | FprintfStderr fmt =>
      if String.eqb fmt "cw_gen_stop() failed.\n" then Some Stop else None
  | _ => None
  end.

(** The generator a successful [cw_gen_new] returned. *)
Definition created (e : event) : option Z :=
  match e with
  | GenNew _ gen => if NULL =? gen then None else Some gen
  | _ => None
  end.

(** The generator a [cw_gen_delete] released. *)
Definition released (e : event) : option Z :=
  match e with
  | GenDelete gen => Some gen
  | _ => None
  end.

(** The generator a successful [cw_gen_start] started. *)
Definition started (e : event) : option Z :=
  match e with
  | GenStart gen r => if CW_SUCCESS =? r then Some gen else None
  | _ => None
  end.

(** The generator a [cw_gen_stop] was called on. *)
Definition stopped (e : event) : option Z :=
  match e with
  | GenStop gen _ => Some gen
  | _ => None
  end.

(** The write to a debug object an event is, if it is one. *)
Definition debug_write (e : event) : option event :=
  match e with
  | DebugSetFlags _ _ | DebugSetLevel _ _ => Some e
  | _ => None
  end.

(** How often a generator call occurs in a trace. *)
Definition times (s : step) (tr : list event) : nat :=
  count_occ step_eq_dec (pick attempted tr) s.

(** What every invocation does before it creates the generator. *)
Definition prologue : list event :=
  [ Printf "%s: starting.\n" [ArgStr "unixcw_libcw_demo_1"];
    DebugSetFlags Ref_cw_debug_object CW_DEBUG_MASK;
    DebugSetLevel Ref_cw_debug_object CW_DEBUG_DEBUG;
    DebugSetFlags Ref_cw_debug_object_dev CW_DEBUG_MASK;
    DebugSetLevel Ref_cw_debug_object_dev CW_DEBUG_INFO ].

(** The writes to the debug objects among them. *)
Definition debug_writes : list event :=
  [ DebugSetFlags Ref_cw_debug_object CW_DEBUG_MASK;
    DebugSetLevel Ref_cw_debug_object CW_DEBUG_DEBUG;
    DebugSetFlags Ref_cw_debug_object_dev CW_DEBUG_MASK;
    DebugSetLevel Ref_cw_debug_object_dev CW_DEBUG_INFO ].

(** The debug objects after the prologue. *)
Definition debug_enabled (d : cw_debug_t) (lv : Z) : cw_debug_t :=
  {| flags := flags (cw_debug_set_flags d CW_DEBUG_MASK); level := lv |}.

(** *** The paths through the function

    The events from the label [err2] on, with the value of [ret] on
    arrival and the value returned. *)
Inductive from_err2 (gen : Z) (ret_in : Z) : Z -> list event -> Prop :=
| stop_succeeded :
    from_err2 gen ret_in ret_in [GenStop gen CW_SUCCESS; GenDelete gen]
| stop_failed r :
    r <> CW_SUCCESS ->
    from_err2 gen ret_in CW_FAILURE
      [GenStop gen r; FprintfStderr "cw_gen_stop() failed.\n"; GenDelete gen].

(** The events from [cw_gen_new] on, with the value returned. *)
Inductive path (msg : string) : Z -> list event -> Prop :=
| path_create_failed :
    path msg CW_FAILURE [GenNew demo_config NULL; Perror "cw_gen_new"]
| path_start_failed gen r :
    gen <> NULL -> r <> CW_SUCCESS ->
    path msg CW_FAILURE
      [GenNew demo_config gen; GenStart gen r; Perror "cw_gen_start";
       GenDelete gen]
| path_enqueue_failed gen r v tl :
    gen <> NULL -> r <> CW_SUCCESS ->
    from_err2 gen CW_FAILURE v tl ->
    path msg v
      (GenNew demo_config gen :: GenStart gen CW_SUCCESS ::
       GenEnqueueString gen msg r :: Perror "cw_gen_enqueue_string" :: tl)
| path_wait_failed gen r v tl :
    gen <> NULL -> r <> CW_SUCCESS ->
    from_err2 gen CW_FAILURE v tl ->
    path msg v
      (GenNew demo_config gen :: GenStart gen CW_SUCCESS ::
       GenEnqueueString gen msg CW_SUCCESS ::
       GenWaitForQueueLevel gen 0 r ::
       Perror "cw_gen_wait_for_queue_level" :: tl)
| path_drained gen v tl :
    gen <> NULL ->
    from_err2 gen CW_SUCCESS v tl ->
    path msg v
      (GenNew demo_config gen :: GenStart gen CW_SUCCESS ::
       GenEnqueueString gen msg CW_SUCCESS ::
       GenWaitForQueueLevel gen 0 CW_SUCCESS :: tl).

(** *** Further readers of a trace *)

(** The generator a call after [cw_gen_new] was made on. *)
Definition used (e : event) : option Z :=
  match e with
  | GenStart gen _
  | GenEnqueueString gen _ _
  | GenWaitForQueueLevel gen _ _
  | GenStop gen _
  | GenDelete gen => Some gen
  | _ => None
  end.

(** The configuration [cw_gen_new] was called with. *)
Definition configured (e : event) : option cw_gen_config_t :=
  match e with
  | GenNew cfg _ => Some cfg
  | _ => None
  end.

(** The string [cw_gen_enqueue_string] was called with. *)
Definition enqueued (e : event) : option string :=
  match e with
  | GenEnqueueString _ s _ => Some s
  | _ => None
  end.

(** The queue level [cw_gen_wait_for_queue_level] was called with. *)
Definition waited (e : event) : option Z :=
  match e with
  | GenWaitForQueueLevel _ lv _ => Some lv
  | _ => None
  end.

(** The chars of [CW_DEFAULT_NULL_DEVICE] up to its terminating zero. *)
Definition null_device_chars : list ascii :=
  c_str (list_ascii_of_string CW_DEFAULT_NULL_DEVICE).

(** The events that follow the first [cw_gen_delete] of a trace. *)
Fixpoint after_delete (tr : list event) : list event :=
  match tr with
  | [] => []
  | GenDelete _ :: tr' => tr'
  | _ :: tr' => after_delete tr'
  end.

End Demo.

(** *** A concrete header and a scripted library

    Values in the style of libcw's headers, and a library whose state is the
    script of the results its calls return; they give the general theorems
    concrete executions. *)

#[export] Instance sample_header : libcw_header :=
  {| CW_SUCCESS := 1;
     CW_FAILURE := 0;
     CW_DEBUG_MASK := 2097151;
     CW_DEBUG_DEBUG := 0;
     CW_DEBUG_INFO := 1;
     CW_AUDIO_NULL := 1;
     CW_DEFAULT_NULL_DEVICE := "";
     sizeof_sound_device := 8 |}.

(** A header whose null device name fits the array with room to spare. *)
Definition named_device_header : libcw_header :=
  {| CW_SUCCESS := 1;
     CW_FAILURE := 0;
     CW_DEBUG_MASK := 2097151;
     CW_DEBUG_DEBUG := 0;
     CW_DEBUG_INFO := 1;
     CW_AUDIO_NULL := 1;
     CW_DEFAULT_NULL_DEVICE := "/dev/null";
     sizeof_sound_device := 16 |}.

(** A header whose null device name does not fit the array. *)
Definition long_device_header : libcw_header :=
  {| CW_SUCCESS := 1;
     CW_FAILURE := 0;
     CW_DEBUG_MASK := 2097151;
     CW_DEBUG_DEBUG := 0;
     CW_DEBUG_INFO := 1;
     CW_AUDIO_NULL := 1;
     CW_DEFAULT_NULL_DEVICE := "/dev/null";
     sizeof_sound_device := 4 |}.

Record script : Type :=
  { new_returns : Z;
    start_returns : Z;
    enqueue_returns : Z;
    wait_returns : Z;
    stop_returns : Z }.

#[export] Instance scripted : libcw script :=
  {| cw_debug_set_flags := fun d fl => {| flags := fl; level := level d |};
     cw_gen_new := fun _ sc => (new_returns sc, sc);
     cw_gen_start := fun _ sc => (start_returns sc, sc);
     cw_gen_enqueue_string := fun _ _ sc => (enqueue_returns sc, sc);
     cw_gen_wait_for_queue_level := fun _ _ sc => (wait_returns sc, sc);
     cw_gen_stop := fun _ sc => (stop_returns sc, sc);
     cw_gen_delete := fun _ sc => sc |}.

(** A process whose library follows [sc] and whose debug objects are
    silent. *)
Definition process (sc : script) : globals script :=
  {| lib := sc;
     cw_debug_object := {| flags := 0; level := 4 |};
     cw_debug_object_dev := {| flags := 0; level := 4 |} |}.

(** The library succeeds at every call. *)
Definition all_succeed : script :=
  {| new_returns := 4096; start_returns := 1; enqueue_returns := 1;
     wait_returns := 1; stop_returns := 1 |}.

Definition create_fails : script :=
  {| new_returns := 0; start_returns := 1; enqueue_returns := 1;
     wait_returns := 1; stop_returns := 1 |}.

Definition start_fails : script :=
  {| new_returns := 4096; start_returns := 0; enqueue_returns := 1;
     wait_returns := 1; stop_returns := 1 |}.

Definition enqueue_fails : script :=
  {| new_returns := 4096; start_returns := 1; enqueue_returns := 0;
     wait_returns := 1; stop_returns := 1 |}.

Definition wait_fails : script :=
  {| new_returns := 4096; start_returns := 1; enqueue_returns := 1;
     wait_returns := 0; stop_returns := 1 |}.

Definition stop_fails : script :=
  {| new_returns := 4096; start_returns := 1; enqueue_returns := 1;
     wait_returns := 1; stop_returns := 0 |}.

Definition wait_and_stop_fail : script :=
  {| new_returns := 4096; start_returns := 1; enqueue_returns := 1;
     wait_returns := 0; stop_returns := 0 |}.

Definition enqueue_and_stop_fail : script :=
  {| new_returns := 4096; start_returns := 1; enqueue_returns := 0;
     wait_returns := 1; stop_returns := 0 |}.

End UnixcwLibcwDemo.

(* ===================================================================== *)
(** ** hello_world_c_2.c *)
(* ===================================================================== *)

Module HelloWorldC2.

(** [hello_world_c_2_cb], a pointer to a function from a string to
    [int32_t]: the address that [%p] prints and the code that a call
    through the pointer runs on the world [W].  The pointer is one that can
    be called. *)
Record hello_world_c_2_cb (W : Type) : Type :=
  { address : Z; code : string -> W -> Z * W }.
Arguments address {W}.
Arguments code {W}.

(** What the function links against: [printf] of the C runtime, which
    returns the number of characters written or a negative value,
    [hello_world_rust_2_fn] of the Rust side, which is handed a callback,
    and the address at which the static [hello_world_c_2_callback] lies.
    Results are [int]/[int32_t] values, kept as integers. *)
Class environment (W : Type) : Type :=
  { printf : string -> list printf_arg -> W -> Z * W;
    hello_world_rust_2_fn : hello_world_c_2_cb W -> W -> Z * W;
    hello_world_c_2_callback_address : Z }.

(** The calls [hello_world_c_2_fn] makes, each with the value returned. *)
Inductive event : Type :=
| Printf (fmt : string) (args : list printf_arg) (r : Z)
| Callback (addr : Z) (msg : string) (r : Z)
| RustFn (cb : Z) (r : Z).

Section Hello.
Context {W : Type} {E : environment W}.

Definition M : Type -> Type := state (machine W event).

Definition call_printf (fmt : string) (args : list printf_arg) : M Z :=
  r <- extern (printf fmt args) ;;
  emit (Printf fmt args r) ;;
  ret r.

(** A call through the supplied pointer. *)
Definition call_callback (callback : hello_world_c_2_cb W) (msg : string)
  : M Z :=
  r <- extern (code callback msg) ;;
  emit (Callback (address callback) msg r) ;;
  ret r.

Definition call_hello_world_rust_2_fn (cb : hello_world_c_2_cb W) : M Z :=
  r <- extern (hello_world_rust_2_fn cb) ;;
  emit (RustFn (address cb) r) ;;
  ret r.

(** The static callback, as the code the Rust side runs when it calls the
    pointer it was given. *)
Definition hello_world_c_2_callback (msg : string) (w : W) : Z * W :=
  let ret_ := printf "Hello world 2, printed in C, %s.\n" [ArgStr msg] w in
  ret_.

Definition hello_world_c_2_callback_ptr : hello_world_c_2_cb W :=
  {| address := hello_world_c_2_callback_address;
     code := hello_world_c_2_callback |}.

Definition hello_world_c_2_fn (callback : hello_world_c_2_cb W) : M Z :=
  ret_ <- call_printf "Hello world 2, printed in C, callback = %p.\n"
            [ArgPtr (address callback)] ;;
  ret2 <- call_callback callback "from C" ;;
  call_printf "hello_world_c_2_fn callback; ret2 = %d.\n" [ArgInt ret2] ;;
  ret2 <- call_hello_world_rust_2_fn hello_world_c_2_callback_ptr ;;
  call_printf "hello_world_rust_2_fn; ret2 = %d.\n" [ArgInt ret2] ;;
  ret ret_.

(** The strings the supplied callback was called with. *)
Definition invoked (e : event) : option string :=
  match e with
  | Callback _ msg _ => Some msg
  | _ => None
  end.

(** The integers printed with [%d]. *)
Definition printed (e : event) : option Z :=
  match e with
  | Printf _ [ArgInt n] _ => Some n
  | _ => None
  end.

(** The values the callback and the Rust function returned. *)
Definition returned (e : event) : option Z :=
  match e with
  | Callback _ _ r | RustFn _ r => Some r
  | _ => None
  end.

Definition result (callback : hello_world_c_2_cb W) (w : W) : Z :=
  fst (runState (hello_world_c_2_fn callback) (Machine w [])).

Definition calls (callback : hello_world_c_2_cb W) (w : W) : list event :=
  trace (snd (runState (hello_world_c_2_fn callback) (Machine w []))).

(** The kinds of call [hello_world_c_2_fn] makes. *)
Inductive call_kind : Type := ToPrintf | ToCallback | ToRust.

Definition kind_of (e : event) : call_kind :=
  match e with
  | Printf _ _ _ => ToPrintf
  | Callback _ _ _ => ToCallback
  | RustFn _ _ => ToRust
  end.

(** The address of the callback handed to [hello_world_rust_2_fn]. *)
Definition handed (e : event) : option Z :=
  match e with
  | RustFn cb _ => Some cb
  | _ => None
  end.

(** The world [hello_world_c_2_fn] leaves. *)
Definition world_after (callback : hello_world_c_2_cb W) (w : W) : W :=
  globals (snd (runState (hello_world_c_2_fn callback) (Machine w []))).

End Hello.

(** A world that is the text written so far; [printf] returns the length
    of its format, the Rust function calls the callback it is given with
    "from Rust" and returns 5. *)
#[export] Instance console : environment (list string) :=
  {| printf := fun fmt _ out => (Z.of_nat (String.length fmt), (out ++ [fmt])%list);
     hello_world_rust_2_fn := fun cb out =>
       (5, snd (code cb "from Rust" out));
     hello_world_c_2_callback_address := 4198400 |}.

(** The same world with a Rust function that calls the callback it is
    given with "from Rust" and returns what the callback returned. *)
Definition relay : environment (list string) :=
  {| printf := fun fmt _ out => (Z.of_nat (String.length fmt), (out ++ [fmt])%list);
     hello_world_rust_2_fn := fun cb out => code cb "from Rust" out;
     hello_world_c_2_callback_address := 4198400 |}.

(** A callback that writes nothing and returns -3. *)
Definition silent_callback : hello_world_c_2_cb (list string) :=
  {| address := 4202496; code := fun _ out => (-3, out) |}.

End HelloWorldC2.

(* ===================================================================== *)
(** ** Properties of [unixcw_libcw_demo_1] *)
(* ===================================================================== *)

Module UnixcwLibcwDemoSpec.
Import UnixcwLibcwDemo.

Example run_all_succeed :
  result "SOS" (process all_succeed) = 1 /\
  pick attempted (calls "SOS" (process all_succeed))
    = [Create; Start; Enqueue; Wait; Stop; Destroy].
Proof. split; reflexivity. Qed.

Example run_enqueue_and_stop_fail :
  invoke "SOS" (boot (process enqueue_and_stop_fail))
  = (0, Machine
          {| lib := enqueue_and_stop_fail;
             cw_debug_object := {| flags := 2097151; level := 0 |};
             cw_debug_object_dev := {| flags := 2097151; level := 1 |} |}
          (prologue ++
           [GenNew demo_config 4096; GenStart 4096 1;
            GenEnqueueString 4096 "SOS" 0; Perror "cw_gen_enqueue_string";
            GenStop 4096 0; FprintfStderr "cw_gen_stop() failed.\n";
            GenDelete 4096])).
Proof. reflexivity. Qed.

Section DemoFacts.
Context {H : libcw_header} {W : Type} {L : libcw W}.

Lemma eqb_success_false r : r <> CW_SUCCESS -> (CW_SUCCESS =? r) = false.
Proof. intros Hr. apply Z.eqb_neq. congruence. Qed.

Lemma eqb_null_false gen : gen <> NULL -> (NULL =? gen) = false.
Proof. intros Hg. apply Z.eqb_neq. congruence. Qed.

(** Case analysis on the next test the source applies to a result. *)
Ltac split_test :=
  match goal with
  | |- context [NULL =? ?g] =>
      destruct (Z.eqb_spec NULL g); cbn -[Z.eqb NULL]
  | |- context [CW_SUCCESS =? ?r] =>
      destruct (Z.eqb_spec CW_SUCCESS r); cbn -[Z.eqb NULL]
  end.

(** Bring a trace built by successive [emit]s into the form
    [old ++ new]. *)
Ltac tidy_trace :=
  repeat rewrite <- app_assoc; cbn [app]; try reflexivity.

(** Every invocation runs the prologue and then one of the paths. *)
Lemma invoke_path (msg : string) (m : machine (globals W) event) :
  exists tl,
    path msg (fst (invoke msg m)) tl /\
    trace (snd (invoke msg m)) = (trace m ++ prologue ++ tl)%list /\
    cw_debug_object (Runtime.globals (snd (invoke msg m)))
      = debug_enabled (cw_debug_object (Runtime.globals m)) CW_DEBUG_DEBUG /\
    cw_debug_object_dev (Runtime.globals (snd (invoke msg m)))
      = debug_enabled (cw_debug_object_dev (Runtime.globals m)) CW_DEBUG_INFO.
Proof.
  unfold invoke, unixcw_libcw_demo_1.
  cbn -[Z.eqb NULL prologue].
  repeat split_test.
  all: eexists; repeat split; try tidy_trace.
  all: repeat match goal with
         | e : _ = fst _ |- _ => rewrite <- e; clear e
         end.
  all: econstructor; try congruence; constructor; congruence.
Qed.

(** The same for an invocation in a fresh process. *)
Lemma run_path (msg : string) (g : globals W) :
  exists tl,
    path msg (result msg g) tl /\ calls msg g = (prologue ++ tl)%list.
Proof.
  destruct (invoke_path msg (boot g)) as (tl & Hp & Htr & _).
  exists tl. split; [exact Hp | exact Htr].
Qed.

(** Evaluate the readers of a trace on a path. *)
Ltac eval_trace :=
  cbn -[Z.eqb NULL];
  repeat (first [ rewrite Z.eqb_refl
                | rewrite eqb_null_false by assumption
                | rewrite eqb_success_false by assumption ];
          cbn -[Z.eqb NULL]).

(** Enumerate the paths of the invocation of [msg] in [g]. *)
Ltac on_paths msg g :=
  let tl := fresh "tl" in
  let Hp := fresh "Hp" in
  let Htr := fresh "Htr" in
  destruct (run_path msg g) as (tl & Hp & Htr);
  rewrite ?Htr in *; clear Htr;
  inversion Hp; subst;
  try match goal with
    | Ht : from_err2 _ _ _ _ |- _ => inversion Ht; subst
    end.

(** The messages written are, in order, those of the calls that failed. *)
Lemma diagnosed_failed (msg : string) (g : globals W) :
  pick diagnosed (calls msg g) = pick failed (calls msg g).
Proof. on_paths msg g; eval_trace; reflexivity. Qed.

(** The value returned is [CW_SUCCESS] when no call failed and
    [CW_FAILURE] when one did. *)
Lemma result_failed (msg : string) (g : globals W) :
  result msg g =
    match pick failed (calls msg g) with
    | [] => CW_SUCCESS
    | _ :: _ => CW_FAILURE
    end.
Proof.
  on_paths msg g; eval_trace; reflexivity.
Qed.

(** The generator calls made follow the source order, and there are four
    possible lists of them. *)
Lemma attempted_shapes (msg : string) (g : globals W) :
  In (pick attempted (calls msg g))
     [ [Create];
       [Create; Start; Destroy];
       [Create; Start; Enqueue; Stop; Destroy];
       [Create; Start; Enqueue; Wait; Stop; Destroy] ].
Proof. on_paths msg g; eval_trace; tauto. Qed.

Lemma pick_app {A : Type} (f : event -> option A) (a b : list event) :
  pick f (a ++ b) = (pick f a ++ pick f b)%list.
Proof.
  induction a as [|e a IH]; cbn [pick app].
  - reflexivity.
  - destruct (f e); rewrite IH; reflexivity.
Qed.

(** C1.  Whatever the five calls return, [cw_gen_new] is called once, the
    generators passed to [cw_gen_delete] are exactly the generators a
    successful [cw_gen_new] returned, and [cw_gen_delete] is called once
    when [cw_gen_new] succeeded and not at all when it failed: the
    generator is neither leaked nor released twice. *)
Theorem destroy_once_iff_created (msg : string) (g : globals W) :
  times Create (calls msg g) = 1%nat /\
  pick released (calls msg g) = pick created (calls msg g) /\
  times Destroy (calls msg g)
    = match pick created (calls msg g) with
      | [] => 0%nat
      | _ :: _ => 1%nat
      end.
Proof. on_paths msg g; eval_trace; repeat split. Qed.

(** C2.  [cw_gen_stop] is called if and only if [cw_gen_start] was called
    and returned [CW_SUCCESS]; it is then called at most once, and on the
    generator that was started. *)
Theorem stop_iff_start_succeeded (msg : string) (g : globals W) :
  ((0 < times Stop (calls msg g))%nat <->
     exists gen, In (GenStart gen CW_SUCCESS) (calls msg g)) /\
  (times Stop (calls msg g) <= 1)%nat /\
  pick stopped (calls msg g) = pick started (calls msg g).
Proof.
  on_paths msg g; eval_trace.
  all: split; [split | split; [lia | reflexivity]].
  (* create failed, then start failed: no stop, no successful start *)
  1, 3: lia.
  1, 2: intros [gen0 Hin]; exfalso;
    repeat (destruct Hin as [Hin | Hin]; try discriminate Hin);
    solve [contradiction | injection Hin; intros; congruence].
  (* start succeeded: the seventh event is the successful start *)
  all: try (intros _; lia).
  all: intros _; exists gen; do 6 right; left; reflexivity.
Qed.

(** The same evaluation in a hypothesis. *)
Ltac eval_trace_in Hyp :=
  cbn -[Z.eqb NULL] in Hyp;
  repeat (first [ rewrite Z.eqb_refl in Hyp
                | rewrite eqb_null_false in Hyp by assumption
                | rewrite eqb_success_false in Hyp by assumption ];
          cbn -[Z.eqb NULL] in Hyp).


(** C4, as the code has it.  The function returns [CW_SUCCESS] or
    [CW_FAILURE] and nothing else; with the two values distinct it returns
    [CW_FAILURE] exactly when some call failed; and the message of a call
    is written exactly when that call failed. *)
Theorem one_failure_value (msg : string) (g : globals W) :
  CW_SUCCESS <> CW_FAILURE ->
  (result msg g = CW_SUCCESS \/ result msg g = CW_FAILURE) /\
  (result msg g = CW_FAILURE <-> pick failed (calls msg g) <> []) /\
  (forall s, In s (pick diagnosed (calls msg g)) <->
             In s (pick failed (calls msg g))).
Proof.
  intros Hdistinct.
  rewrite diagnosed_failed, result_failed.
  case_eq (pick failed (calls msg g)).
  - intros _. split; [left; reflexivity|].
    split; [|tauto]. split; [contradiction | congruence].
  - intros s0 rest _. split; [right; reflexivity|].
    split; [|tauto]. split; [discriminate | reflexivity].
Qed.

(** C5.  When no call fails the function returns [CW_SUCCESS] and the
    generator calls are one create, one start, one enqueue of [msg], one
    wait for queue level 0, one stop and one delete, in that order and on
    the generator that was created. *)
Theorem all_succeed_full_lifecycle (msg : string) (g : globals W) :
  pick failed (calls msg g) = [] ->
  result msg g = CW_SUCCESS /\
  pick attempted (calls msg g)
    = [Create; Start; Enqueue; Wait; Stop; Destroy] /\
  exists gen,
    gen <> NULL /\
    calls msg g
      = (prologue ++
         [ GenNew demo_config gen;
           GenStart gen CW_SUCCESS;
           GenEnqueueString gen msg CW_SUCCESS;
           GenWaitForQueueLevel gen 0 CW_SUCCESS;
           GenStop gen CW_SUCCESS;
           GenDelete gen ])%list.
Proof.
  intros Hnone.
  on_paths msg g; eval_trace_in Hnone; try discriminate Hnone.
  split; [reflexivity|]. split; [reflexivity|].
  exists gen. split; [assumption | reflexivity].
Qed.

(** C6.  When [cw_gen_new] returns [NULL] the function returns
    [CW_FAILURE] after the message of [cw_gen_new], and calls none of
    [cw_gen_start], [cw_gen_stop] and [cw_gen_delete] (nor any other
    generator function). *)
Theorem create_failure_calls_nothing_else (msg : string) (g : globals W) :
  fst (cw_gen_new demo_config (lib g)) = NULL ->
  result msg g = CW_FAILURE /\
  calls msg g
    = (prologue ++ [GenNew demo_config NULL; Perror "cw_gen_new"])%list /\
  times Start (calls msg g) = 0%nat /\
  times Stop (calls msg g) = 0%nat /\
  times Destroy (calls msg g) = 0%nat.
Proof.
  intros Hnull.
  unfold times, result, calls, invoke, unixcw_libcw_demo_1.
  cbn -[Z.eqb NULL]. rewrite Hnull. cbn.
  repeat split.
Qed.

(** C7.  When [cw_gen_stop] is the only call that fails, the function
    returns [CW_FAILURE] after the message of [cw_gen_stop], and
    [cw_gen_delete] is still called, once, after the stop. *)
Theorem stop_failure_still_destroys (msg : string) (g : globals W) :
  pick failed (calls msg g) = [Stop] ->
  result msg g = CW_FAILURE /\
  times Destroy (calls msg g) = 1%nat /\
  pick diagnosed (calls msg g) = [Stop] /\
  pick attempted (calls msg g)
    = [Create; Start; Enqueue; Wait; Stop; Destroy].
Proof.
  intros Honly.
  pose proof (diagnosed_failed msg g) as Hdiag.
  pose proof (result_failed msg g) as Hres.
  rewrite Honly in Hdiag, Hres.
  split; [exact Hres|]. split; [|split; [exact Hdiag|]].
  - revert Honly. on_paths msg g; eval_trace; intros Honly;
      eval_trace_in Honly; (discriminate Honly || reflexivity).
  - revert Honly. on_paths msg g; eval_trace; intros Honly;
      eval_trace_in Honly; (discriminate Honly || reflexivity).
Qed.

(** C8, as the code has it.  [cw_gen_new] is called exactly once, and no
    generator function is called more than once: there is no retry.  A call
    that an earlier failure jumps past is not made at all: [cw_gen_start] is
    called exactly when [cw_gen_new] succeeded, [cw_gen_enqueue_string] and
    [cw_gen_stop] exactly when [cw_gen_new] and [cw_gen_start] succeeded,
    and [cw_gen_wait_for_queue_level] exactly when [cw_gen_new],
    [cw_gen_start] and [cw_gen_enqueue_string] succeeded. *)
Theorem each_call_at_most_once (msg : string) (g : globals W) :
  times Create (calls msg g) = 1%nat /\
  (forall s, (times s (calls msg g) <= 1)%nat) /\
  (times Start (calls msg g) = 1%nat <->
     ~ In Create (pick failed (calls msg g))) /\
  (times Enqueue (calls msg g) = 1%nat <->
     ~ In Create (pick failed (calls msg g)) /\
     ~ In Start (pick failed (calls msg g))) /\
  (times Wait (calls msg g) = 1%nat <->
     ~ In Create (pick failed (calls msg g)) /\
     ~ In Start (pick failed (calls msg g)) /\
     ~ In Enqueue (pick failed (calls msg g))) /\
  (times Stop (calls msg g) = 1%nat <->
     ~ In Create (pick failed (calls msg g)) /\
     ~ In Start (pick failed (calls msg g))).
Proof.
  split; [|split].
  - (* one create *)
    unfold times.
    pose proof (attempted_shapes msg g) as Hshape.
    cbn [In] in Hshape.
    destruct Hshape as [Hs | [Hs | [Hs | [Hs | []]]]]; rewrite <- Hs;
      reflexivity.
  - (* no retry *)
    unfold times.
    pose proof (attempted_shapes msg g) as Hshape.
    cbn [In] in Hshape.
    destruct Hshape as [Hs | [Hs | [Hs | [Hs | []]]]]; rewrite <- Hs.
    all: intros s; destruct s; cbn; lia.
  - (* a call is made exactly when the calls before it succeeded *)
    on_paths msg g; eval_trace.
    all: repeat split; intros; try discriminate; try reflexivity.
    all: intuition (discriminate || congruence).
Qed.

(** C10.  Every invocation, from any state of the process and whatever
    [cw_gen_new] returns, first writes the flags and the level of
    [cw_debug_object] and of [cw_debug_object_dev] and only then calls
    [cw_gen_new]; it writes the debug objects nowhere else, so they keep
    these values when the function returns; and a second invocation
    writes them again. *)
Theorem debug_configuration_set_on_every_call
    (msg : string) (m : machine (globals W) event) :
  (exists gen rest,
     trace (snd (invoke msg m))
       = (trace m ++ prologue ++ GenNew demo_config gen :: rest)%list /\
     pick attempted prologue = [] /\
     pick debug_write rest = []) /\
  cw_debug_object (Runtime.globals (snd (invoke msg m)))
    = debug_enabled (cw_debug_object (Runtime.globals m)) CW_DEBUG_DEBUG /\
  cw_debug_object_dev (Runtime.globals (snd (invoke msg m)))
    = debug_enabled (cw_debug_object_dev (Runtime.globals m)) CW_DEBUG_INFO /\
  forall msg',
    pick debug_write (trace (snd (invoke msg' (snd (invoke msg m)))))
      = (pick debug_write (trace m) ++ debug_writes ++ debug_writes)%list.
Proof.
  destruct (invoke_path msg m) as (tl & Hp & Htr & Hdbg & Hdev).
  assert (Hshape : exists gen rest,
             tl = GenNew demo_config gen :: rest /\
             pick debug_write rest = []).
  { inversion Hp; subst;
      try match goal with
        | Ht : from_err2 _ _ _ _ |- _ => inversion Ht; subst
        end;
      eexists; eexists; split; reflexivity. }
  destruct Hshape as (gen & rest & -> & Hrest).
  split; [|split; [exact Hdbg | split; [exact Hdev|]]].
  - exists gen, rest. repeat split; assumption.
  - intros msg'.
    destruct (invoke_path msg' (snd (invoke msg m)))
      as (tl' & Hp' & Htr' & _).
    assert (Hquiet : pick debug_write tl' = []).
    { inversion Hp'; subst;
        try match goal with
          | Ht : from_err2 _ _ _ _ |- _ => inversion Ht; subst
          end;
        reflexivity. }
    rewrite Htr', Htr.
    rewrite !pick_app, Hquiet.
    cbn [pick debug_write]. rewrite Hrest.
    rewrite !app_nil_r, <- !app_assoc. reflexivity.
Qed.

(** *** Further properties of [unixcw_libcw_demo_1] *)

(** The same facts for a path that follows the prologue in any trace. *)
Lemma path_balanced (msg : string) (v : Z) (tl : list event) :
  path msg v tl ->
  pick released (prologue ++ tl) = pick created (prologue ++ tl) /\
  v = match pick failed (prologue ++ tl) with
      | [] => CW_SUCCESS
      | _ :: _ => CW_FAILURE
      end.
Proof.
  intros Hp. inversion Hp; subst;
    try match goal with
      | Ht : from_err2 _ _ _ _ |- _ => inversion Ht; subst
      end;
    eval_trace; split; reflexivity.
Qed.

(** The possible lists of failed calls. *)
Lemma failed_shapes (msg : string) (g : globals W) :
  In (pick failed (calls msg g))
     [ []; [Create]; [Start]; [Enqueue]; [Enqueue; Stop];
       [Wait]; [Wait; Stop]; [Stop] ].
Proof. on_paths msg g; eval_trace; tauto. Qed.

(** X1.  The first call that fails decides which generator calls are made:
    after a failed create none; after a failed start only the delete;
    after a failed enqueue the stop and the delete, the wait being skipped;
    otherwise all six. *)
Theorem calls_made_by_first_failure (msg : string) (g : globals W) :
  pick attempted (calls msg g) =
    match hd_error (pick failed (calls msg g)) with
    | Some Create => [Create]
    | Some Start => [Create; Start; Destroy]
    | Some Enqueue => [Create; Start; Enqueue; Stop; Destroy]
    | _ => [Create; Start; Enqueue; Wait; Stop; Destroy]
    end.
Proof. on_paths msg g; eval_trace; reflexivity. Qed.

(** X3.  Every generator call after [cw_gen_new] is made on the pointer
    that [cw_gen_new] returned, which is not [NULL]; [cw_gen_new] gets the
    configuration the function built; the string enqueued is [msg]; the
    queue level waited for is 0. *)
Theorem calls_use_created_generator (msg : string) (g : globals W) :
  Forall (fun gen => gen <> NULL /\ pick created (calls msg g) = [gen])
         (pick used (calls msg g)) /\
  pick configured (calls msg g) = [demo_config] /\
  Forall (eq msg) (pick enqueued (calls msg g)) /\
  Forall (eq 0) (pick waited (calls msg g)).
Proof.
  on_paths msg g; eval_trace.
  all: repeat split; repeat constructor; assumption.
Qed.

(** X4.  [cw_gen_delete] is the last thing the function does: no event
    follows it, so the generator is not used after its release; and when
    no generator was created, no generator function other than
    [cw_gen_new] is called. *)
Theorem delete_is_last (msg : string) (g : globals W) :
  after_delete (calls msg g) = [] /\
  match pick created (calls msg g) with
  | [] => pick used (calls msg g) = []
  | gen :: _ => last (calls msg g) (GenDelete NULL) = GenDelete gen
  end.
Proof. on_paths msg g; eval_trace; split; reflexivity. Qed.

(** A zero char inside the source ends the copy: the rest is padding. *)
Example strncpy_stops_at_zero :
  strncpy (String "a" (String zero (String "b" EmptyString))) 4
  = ["a"%char; zero; zero; zero].
Proof. reflexivity. Qed.

(** A C string holds no zero char. *)
Lemma c_str_no_zero (s : list ascii) :
  Forall (fun c => c <> zero) (c_str s).
Proof.
  induction s as [|c s IH]; cbn [c_str].
  - constructor.
  - destruct (Ascii.eqb_spec c zero) as [Hz | Hnz].
    + constructor.
    + constructor; assumption.
Qed.

(** Reading back chars without a zero that are followed by a zero. *)
Lemma c_str_terminated (s rest : list ascii) :
  Forall (fun c => c <> zero) s ->
  c_str (s ++ zero :: rest) = s.
Proof.
  induction 1 as [|c s Hc Hs IH]; cbn [c_str app].
  - reflexivity.
  - destruct (Ascii.eqb_spec c zero) as [Hz | Hnz]; [contradiction|].
    rewrite IH. reflexivity.
Qed.

(** [strncpy] fills the whole array. *)
Lemma strncpy_length (src : string) (n : nat) :
  List.length (strncpy src n) = n.
Proof.
  unfold strncpy. cbv zeta.
  rewrite length_app, length_firstn, repeat_length. lia.
Qed.

(** A source shorter than the array is copied whole and followed by
    zeros. *)
Lemma strncpy_short (src : string) (n : nat) :
  (List.length (c_str (list_ascii_of_string src)) <= n)%nat ->
  strncpy src n
    = (c_str (list_ascii_of_string src)
         ++ repeat zero (n - List.length (c_str (list_ascii_of_string src))))%list.
Proof.
  intros Hle. unfold strncpy. cbv zeta.
  rewrite firstn_all2 by exact Hle. reflexivity.
Qed.

(** A source at least as long as the array is cut, and nothing is added. *)
Lemma strncpy_long (src : string) (n : nat) :
  (n <= List.length (c_str (list_ascii_of_string src)))%nat ->
  strncpy src n = firstn n (c_str (list_ascii_of_string src)).
Proof.
  intros Hle. unfold strncpy. cbv zeta.
  replace (n - List.length (c_str (list_ascii_of_string src)))%nat
    with 0%nat by lia.
  cbn [repeat]. apply app_nil_r.
Qed.

(** X5.  The configuration selects [CW_AUDIO_NULL]; its device array has
    exactly [sizeof_sound_device] chars, begins with the chars of
    [CW_DEFAULT_NULL_DEVICE] (those before its terminating zero) that fit,
    and is zero from the end of the name on. *)
Theorem sound_device_fills_array :
  sound_system demo_config = CW_AUDIO_NULL /\
  List.length (sound_device demo_config) = sizeof_sound_device /\
  firstn (List.length null_device_chars) (sound_device demo_config)
    = firstn sizeof_sound_device null_device_chars /\
  Forall (eq zero)
    (skipn (List.length null_device_chars) (sound_device demo_config)) /\
  Forall (fun c => c <> zero) null_device_chars.
Proof.
  split; [reflexivity|]. split; [apply strncpy_length|].
  rewrite <- and_assoc. split; [|apply c_str_no_zero].
  unfold demo_config, null_device_chars. cbn [sound_device].
  destruct (Nat.le_gt_cases
              (List.length (c_str (list_ascii_of_string CW_DEFAULT_NULL_DEVICE)))
              sizeof_sound_device) as [Hfit | Hcut].
  - rewrite strncpy_short by exact Hfit.
    rewrite (firstn_all2 (n := sizeof_sound_device)) by exact Hfit.
    split.
    + rewrite firstn_app, Nat.sub_diag, firstn_all. cbn [firstn].
      apply app_nil_r.
    + rewrite skipn_app, Nat.sub_diag, skipn_all. cbn [skipn app].
      apply Forall_forall. intros c Hc.
      symmetry. exact (repeat_spec _ _ _ Hc).
  - rewrite strncpy_long by lia.
    split.
    + rewrite firstn_firstn. f_equal. lia.
    + rewrite skipn_all2; [constructor|].
      rewrite length_firstn. lia.
Qed.

(** X6.  When [CW_DEFAULT_NULL_DEVICE] is shorter than the array, the array
    holds the whole name followed by a terminating zero: read back as a C
    string, the array is the name. *)
Theorem sound_device_terminated :
  (List.length null_device_chars < sizeof_sound_device)%nat ->
  firstn (List.length null_device_chars) (sound_device demo_config)
    = null_device_chars /\
  nth (List.length null_device_chars) (sound_device demo_config) "x"%char
    = zero /\
  c_str (sound_device demo_config) = null_device_chars.
Proof.
  unfold demo_config, null_device_chars. cbn [sound_device]. intros Hlt.
  rewrite strncpy_short by lia.
  destruct (sizeof_sound_device
            - List.length (c_str (list_ascii_of_string CW_DEFAULT_NULL_DEVICE)))%nat
    as [|pad] eqn:Hpad; [lia|].
  cbn [repeat]. split; [|split].
  - rewrite firstn_app, Nat.sub_diag, firstn_all. cbn [firstn].
    apply app_nil_r.
  - rewrite app_nth2 by lia. rewrite Nat.sub_diag. reflexivity.
  - apply c_str_terminated, c_str_no_zero.
Qed.

(** X7.  When [CW_DEFAULT_NULL_DEVICE] is at least as long as the array,
    the array holds the first [sizeof_sound_device] chars of the name and
    no zero char at all: the device name is left without a terminator. *)
Theorem sound_device_truncated :
  (sizeof_sound_device <= List.length null_device_chars)%nat ->
  sound_device demo_config = firstn sizeof_sound_device null_device_chars /\
  Forall (fun c => c <> zero) (sound_device demo_config).
Proof.
  unfold demo_config, null_device_chars. cbn [sound_device]. intros Hle.
  rewrite strncpy_long by exact Hle. split; [reflexivity|].
  apply Forall_forall. intros c Hc.
  pose proof (c_str_no_zero (list_ascii_of_string CW_DEFAULT_NULL_DEVICE))
    as Hnz.
  rewrite Forall_forall in Hnz. apply Hnz.
  rewrite <- (firstn_skipn sizeof_sound_device
                (c_str (list_ascii_of_string CW_DEFAULT_NULL_DEVICE))).
  apply in_or_app. left. exact Hc.
Qed.

(** X8.  When [cw_debug_set_flags] stores the flags it is given, the
    function leaves both debug objects with flags [CW_DEBUG_MASK] and
    levels [CW_DEBUG_DEBUG] and [CW_DEBUG_INFO], whatever they held before:
    the earlier configuration is lost, and a further invocation changes
    nothing more. *)
Theorem debug_configuration_overwritten
    (msg : string) (m : machine (globals W) event) :
  (forall d fl, flags (cw_debug_set_flags d fl) = fl) ->
  cw_debug_object (Runtime.globals (snd (invoke msg m)))
    = {| flags := CW_DEBUG_MASK; level := CW_DEBUG_DEBUG |} /\
  cw_debug_object_dev (Runtime.globals (snd (invoke msg m)))
    = {| flags := CW_DEBUG_MASK; level := CW_DEBUG_INFO |} /\
  forall msg',
    cw_debug_object (Runtime.globals (snd (invoke msg' (snd (invoke msg m)))))
      = cw_debug_object (Runtime.globals (snd (invoke msg m))) /\
    cw_debug_object_dev
        (Runtime.globals (snd (invoke msg' (snd (invoke msg m)))))
      = cw_debug_object_dev (Runtime.globals (snd (invoke msg m))).
Proof.
  intros Hstore.
  assert (Hany : forall msg0 m0,
             cw_debug_object (Runtime.globals (snd (invoke msg0 m0)))
               = {| flags := CW_DEBUG_MASK; level := CW_DEBUG_DEBUG |} /\
             cw_debug_object_dev (Runtime.globals (snd (invoke msg0 m0)))
               = {| flags := CW_DEBUG_MASK; level := CW_DEBUG_INFO |}).
  { intros msg0 m0.
    destruct (invoke_path msg0 m0) as (tl & _ & _ & Hdbg & Hdev).
    rewrite Hdbg, Hdev. unfold debug_enabled. rewrite !Hstore.
    split; reflexivity. }
  destruct (Hany msg m) as [Hobj Hdev].
  split; [exact Hobj|]. split; [exact Hdev|].
  intros msg'. destruct (Hany msg' (snd (invoke msg m))) as [Hobj' Hdev'].
  rewrite Hobj', Hdev', Hobj, Hdev. split; reflexivity.
Qed.

(** X9.  Two invocations in a row are two separate lifecycles: the second
    adds its events after those of the first, each invocation releases
    exactly the generators it created, and each returns [CW_FAILURE] or
    [CW_SUCCESS] by its own failures alone. *)
Theorem invocations_are_independent
    (msg1 msg2 : string) (m : machine (globals W) event) :
  exists t1 t2,
    trace (snd (invoke msg1 m)) = (trace m ++ t1)%list /\
    trace (snd (invoke msg2 (snd (invoke msg1 m))))
      = (trace m ++ t1 ++ t2)%list /\
    pick released t1 = pick created t1 /\
    pick released t2 = pick created t2 /\
    fst (invoke msg1 m)
      = match pick failed t1 with [] => CW_SUCCESS | _ :: _ => CW_FAILURE end /\
    fst (invoke msg2 (snd (invoke msg1 m)))
      = match pick failed t2 with [] => CW_SUCCESS | _ :: _ => CW_FAILURE end.
Proof.
  destruct (invoke_path msg1 m) as (tl1 & Hp1 & Htr1 & _).
  destruct (invoke_path msg2 (snd (invoke msg1 m))) as (tl2 & Hp2 & Htr2 & _).
  destruct (path_balanced msg1 _ _ Hp1) as [Hbal1 Hres1].
  destruct (path_balanced msg2 _ _ Hp2) as [Hbal2 Hres2].
  exists (prologue ++ tl1)%list, (prologue ++ tl2)%list.
  split; [exact Htr1|]. split.
  - rewrite Htr2, Htr1, <- app_assoc. reflexivity.
  - repeat split; assumption.
Qed.

End DemoFacts.

(** *** The theorems at concrete executions *)


Lemma one_failure_value_witness :
  (1 <> 0) /\
  ((result "SOS" (process wait_fails) = 1 \/
    result "SOS" (process wait_fails) = 0) /\
   (result "SOS" (process wait_fails) = 0 <->
      pick failed (calls "SOS" (process wait_fails)) <> []) /\
   (forall s, In s (pick diagnosed (calls "SOS" (process wait_fails))) <->
              In s (pick failed (calls "SOS" (process wait_fails))))).
Proof.
  split.
  - lia.
  - apply (@one_failure_value sample_header script scripted
             "SOS" (process wait_fails)).
    cbn. lia.
Defined.

Lemma all_succeed_full_lifecycle_witness :
  pick failed (calls "SOS" (process all_succeed)) = [] /\
  (result "SOS" (process all_succeed) = CW_SUCCESS /\
   pick attempted (calls "SOS" (process all_succeed))
     = [Create; Start; Enqueue; Wait; Stop; Destroy] /\
   exists gen,
     gen <> NULL /\
     calls "SOS" (process all_succeed)
       = (prologue ++
          [ GenNew demo_config gen;
            GenStart gen CW_SUCCESS;
            GenEnqueueString gen "SOS" CW_SUCCESS;
            GenWaitForQueueLevel gen 0 CW_SUCCESS;
            GenStop gen CW_SUCCESS;
            GenDelete gen ])%list).
Proof.
  split.
  - reflexivity.
  - apply (all_succeed_full_lifecycle "SOS" (process all_succeed)).
    reflexivity.
Defined.

Lemma create_failure_calls_nothing_else_witness :
  fst (cw_gen_new demo_config (lib (process create_fails))) = NULL /\
  (result "SOS" (process create_fails) = CW_FAILURE /\
   calls "SOS" (process create_fails)
     = (prologue ++ [GenNew demo_config NULL; Perror "cw_gen_new"])%list /\
   times Start (calls "SOS" (process create_fails)) = 0%nat /\
   times Stop (calls "SOS" (process create_fails)) = 0%nat /\
   times Destroy (calls "SOS" (process create_fails)) = 0%nat).
Proof.
  split.
  - reflexivity.
  - apply (create_failure_calls_nothing_else "SOS" (process create_fails)).
    reflexivity.
Defined.

Lemma stop_failure_still_destroys_witness :
  pick failed (calls "SOS" (process stop_fails)) = [Stop] /\
  (result "SOS" (process stop_fails) = CW_FAILURE /\
   times Destroy (calls "SOS" (process stop_fails)) = 1%nat /\
   pick diagnosed (calls "SOS" (process stop_fails)) = [Stop] /\
   pick attempted (calls "SOS" (process stop_fails))
     = [Create; Start; Enqueue; Wait; Stop; Destroy]).
Proof.
  split.
  - reflexivity.
  - apply (stop_failure_still_destroys "SOS" (process stop_fails)).
    reflexivity.
Defined.

(** X2.  In any execution the calls that fail are one of eight
    combinations: none, one of the five calls alone, or an enqueue or wait
    failure followed by a stop failure; and each of the eight occurs. *)
Theorem failure_combinations :
  (forall (H : libcw_header) (W : Type) (L : libcw W)
          (msg : string) (g : globals W),
     In (pick failed (calls msg g))
        [ []; [Create]; [Start]; [Enqueue]; [Enqueue; Stop];
          [Wait]; [Wait; Stop]; [Stop] ]) /\
  map (fun sc => pick failed (calls "SOS" (process sc)))
      [ all_succeed; create_fails; start_fails; enqueue_fails;
        enqueue_and_stop_fail; wait_fails; wait_and_stop_fail; stop_fails ]
    = [ []; [Create]; [Start]; [Enqueue]; [Enqueue; Stop];
        [Wait]; [Wait; Stop]; [Stop] ].
Proof.
  split.
  - intros H W L msg g. apply failed_shapes.
  - reflexivity.
Qed.

Lemma sound_device_terminated_witness :
  (List.length (@null_device_chars named_device_header)
     < @sizeof_sound_device named_device_header)%nat /\
  (firstn (List.length (@null_device_chars named_device_header))
          (sound_device (@demo_config named_device_header))
     = @null_device_chars named_device_header /\
   nth (List.length (@null_device_chars named_device_header))
       (sound_device (@demo_config named_device_header)) "x"%char
     = zero /\
   c_str (sound_device (@demo_config named_device_header))
     = list_ascii_of_string "/dev/null").
Proof.
  split.
  - cbn. lia.
  - apply (@sound_device_terminated named_device_header). cbn. lia.
Defined.

Lemma sound_device_truncated_witness :
  (@sizeof_sound_device long_device_header
     <= List.length (@null_device_chars long_device_header))%nat /\
  (sound_device (@demo_config long_device_header)
     = list_ascii_of_string "/dev" /\
   Forall (fun c => c <> zero)
          (sound_device (@demo_config long_device_header))).
Proof.
  split.
  - cbn. lia.
  - apply (@sound_device_truncated long_device_header). cbn. lia.
Defined.

Lemma debug_configuration_overwritten_witness :
  (forall d fl, flags (@cw_debug_set_flags script scripted d fl) = fl) /\
  (cw_debug_object
     (Runtime.globals (snd (invoke "SOS" (boot (process stop_fails)))))
     = {| flags := CW_DEBUG_MASK; level := CW_DEBUG_DEBUG |} /\
   cw_debug_object_dev
     (Runtime.globals (snd (invoke "SOS" (boot (process stop_fails)))))
     = {| flags := CW_DEBUG_MASK; level := CW_DEBUG_INFO |} /\
   forall msg',
     cw_debug_object
       (Runtime.globals
          (snd (invoke msg' (snd (invoke "SOS" (boot (process stop_fails)))))))
       = cw_debug_object
           (Runtime.globals (snd (invoke "SOS" (boot (process stop_fails))))) /\
     cw_debug_object_dev
       (Runtime.globals
          (snd (invoke msg' (snd (invoke "SOS" (boot (process stop_fails)))))))
       = cw_debug_object_dev
           (Runtime.globals (snd (invoke "SOS" (boot (process stop_fails)))))).
Proof.
  split.
  - intros d fl. reflexivity.
  - apply (@debug_configuration_overwritten sample_header script scripted
             "SOS" (boot (process stop_fails))).
    intros d fl. reflexivity.
Defined.

(** *** Where the code departs from the specification *)


(** Against C4: there are no five distinct failure values, one per call.
    The five executions in which exactly one call fails all return 0. *)
Lemma no_five_failure_values :
  map (fun sc => result "SOS" (process sc))
      [create_fails; start_fails; enqueue_fails; wait_fails; stop_fails]
    = [0; 0; 0; 0; 0] /\
  ~ exists value : step -> Z,
      (forall a b, value a = value b -> a = b) /\
      forall (sc : script) (s : step),
        hd_error (pick failed (calls "SOS" (process sc))) = Some s ->
        result "SOS" (process sc) = value s.
Proof.
  split; [reflexivity|].
  intros (value & Hinj & Hvalue).
  pose proof (Hvalue create_fails Create eq_refl) as Hc.
  pose proof (Hvalue stop_fails Stop eq_refl) as Hs.
  change (result "SOS" (process create_fails)) with 0 in Hc.
  change (result "SOS" (process stop_fails)) with 0 in Hs.
  assert (Heq : Create = Stop) by (apply Hinj; congruence).
  discriminate Heq.
Qed.

(** Against C8: when [cw_gen_new] fails, none of the other four calls is
    attempted, so not each of the five calls is attempted exactly once. *)
Lemma not_every_call_attempted :
  map (fun s => times s (calls "SOS" (process create_fails)))
      [Create; Start; Enqueue; Wait; Stop]
    = [1; 0; 0; 0; 0]%nat /\
  ~ (forall (sc : script) (s : step),
       s <> Destroy -> times s (calls "SOS" (process sc)) = 1%nat).
Proof.
  split; [reflexivity|].
  intros Hall.
  assert (Hstart : Start <> Destroy) by discriminate.
  specialize (Hall create_fails Start Hstart).
  discriminate Hall.
Qed.

End UnixcwLibcwDemoSpec.

(* ===================================================================== *)
(** ** Properties of [hello_world_c_2_fn] *)
(* ===================================================================== *)

Module HelloWorldC2Spec.
Import HelloWorldC2.

Example run_silent_callback :
  runState (hello_world_c_2_fn silent_callback) (Machine [] [])
  = (45,
     Machine
       [ "Hello world 2, printed in C, callback = %p.\n";
         "hello_world_c_2_fn callback; ret2 = %d.\n";
         "Hello world 2, printed in C, %s.\n";
         "hello_world_rust_2_fn; ret2 = %d.\n" ]
       [ Printf "Hello world 2, printed in C, callback = %p.\n"
           [ArgPtr 4202496] 45;
         Callback 4202496 "from C" (-3);
         Printf "hello_world_c_2_fn callback; ret2 = %d.\n" [ArgInt (-3)] 41;
         RustFn 4198400 5;
         Printf "hello_world_rust_2_fn; ret2 = %d.\n" [ArgInt 5] 35 ]).
Proof. reflexivity. Qed.

Section HelloFacts.
Context {W : Type} {E : environment W}.

(** C9.  For every callback and every world, [hello_world_c_2_fn] returns
    what its first [printf], the greeting, returned; it calls the supplied
    callback once, with "from C"; the two values it prints with [%d] are
    the values the callback and [hello_world_rust_2_fn] returned; and the
    result is the same for any other code behind the callback and any other
    [hello_world_rust_2_fn]: their return values do not reach it.  The
    calls are, in full: the greeting with the address of the supplied
    callback; the code of the supplied callback, run on "from C" in the
    world the greeting left; a [printf] of the value that code returned;
    [hello_world_rust_2_fn] on the static callback; a [printf] of the value
    it returned; and the world the function leaves is the one this last
    [printf] leaves. *)
Theorem hello_world_c_2_fn_result (callback : hello_world_c_2_cb W) (w : W) :
  result callback w
    = fst (printf "Hello world 2, printed in C, callback = %p.\n"
             [ArgPtr (address callback)] w) /\
  hd_error (calls callback w)
    = Some (Printf "Hello world 2, printed in C, callback = %p.\n"
              [ArgPtr (address callback)] (result callback w)) /\
  pick invoked (calls callback w) = ["from C"] /\
  pick printed (calls callback w) = pick returned (calls callback w) /\
  List.length (pick returned (calls callback w)) = 2%nat /\
  (forall (code' : string -> W -> Z * W)
          (rust' : hello_world_c_2_cb W -> W -> Z * W),
     @result W
       {| printf := printf;
          hello_world_rust_2_fn := rust';
          hello_world_c_2_callback_address := hello_world_c_2_callback_address |}
       {| address := address callback; code := code' |} w
     = result callback w) /\
  (let p1 := printf "Hello world 2, printed in C, callback = %p.\n"
               [ArgPtr (address callback)] w in
   let c := code callback "from C" (snd p1) in
   let p2 := printf "hello_world_c_2_fn callback; ret2 = %d.\n"
               [ArgInt (fst c)] (snd c) in
   let r := hello_world_rust_2_fn hello_world_c_2_callback_ptr (snd p2) in
   let p3 := printf "hello_world_rust_2_fn; ret2 = %d.\n"
               [ArgInt (fst r)] (snd r) in
   calls callback w
     = [ Printf "Hello world 2, printed in C, callback = %p.\n"
           [ArgPtr (address callback)] (fst p1);
         Callback (address callback) "from C" (fst c);
         Printf "hello_world_c_2_fn callback; ret2 = %d.\n"
           [ArgInt (fst c)] (fst p2);
         RustFn hello_world_c_2_callback_address (fst r);
         Printf "hello_world_rust_2_fn; ret2 = %d.\n"
           [ArgInt (fst r)] (fst p3) ] /\
   world_after callback w = snd p3).
Proof.
  unfold world_after, result, calls, hello_world_c_2_fn.
  cbn. repeat split.
Qed.

(** X10.  Whatever its calls return, a negative [printf] result
    included, [hello_world_c_2_fn] makes the same five calls in the same
    order: the greeting, the supplied callback, a [printf], the Rust
    function, a [printf]; and the callback it hands to the Rust function is
    its own static one, never the one it was supplied. *)
Theorem hello_world_c_2_fn_call_sequence
    (callback : hello_world_c_2_cb W) (w : W) :
  map kind_of (calls callback w)
    = [ToPrintf; ToCallback; ToPrintf; ToRust; ToPrintf] /\
  pick handed (calls callback w) = [hello_world_c_2_callback_address].
Proof. unfold calls, hello_world_c_2_fn. cbn. split; reflexivity. Qed.

(** X11.  When the Rust function calls the callback it is given once, with
    [s], and returns what the callback returned, the value
    [hello_world_c_2_fn] prints last is the result of the static callback's
    own [printf] of [s], made in the world the second [printf] left; that
    [printf] and the last one are the only things done to the world after
    it. *)
Theorem rust_calls_static_callback
    (callback : hello_world_c_2_cb W) (w : W) (s : string) :
  (forall cb w', hello_world_rust_2_fn cb w' = code cb s w') ->
  let w1 :=
    snd (printf "Hello world 2, printed in C, callback = %p.\n"
           [ArgPtr (address callback)] w) in
  let c := code callback "from C" w1 in
  let w2 :=
    snd (printf "hello_world_c_2_fn callback; ret2 = %d.\n"
           [ArgInt (fst c)] (snd c)) in
  let q := printf "Hello world 2, printed in C, %s.\n" [ArgStr s] w2 in
  pick returned (calls callback w) = [fst c; fst q] /\
  pick printed (calls callback w) = [fst c; fst q] /\
  world_after callback w
    = snd (printf "hello_world_rust_2_fn; ret2 = %d.\n"
             [ArgInt (fst q)] (snd q)).
Proof.
  intros Hrust.
  unfold world_after, calls, hello_world_c_2_fn. cbn.
  rewrite !Hrust. cbn. repeat split.
Qed.

End HelloFacts.

Lemma rust_calls_static_callback_witness :
  (forall cb w', @hello_world_rust_2_fn _ relay cb w'
                 = code cb "from Rust" w') /\
  (@calls _ relay silent_callback []
     = [ Printf "Hello world 2, printed in C, callback = %p.\n"
           [ArgPtr 4202496] 45;
         Callback 4202496 "from C" (-3);
         Printf "hello_world_c_2_fn callback; ret2 = %d.\n" [ArgInt (-3)] 41;
         RustFn 4198400 34;
         Printf "hello_world_rust_2_fn; ret2 = %d.\n" [ArgInt 34] 35 ] /\
   pick returned (@calls _ relay silent_callback []) = [-3; 34] /\
   pick printed (@calls _ relay silent_callback []) = [-3; 34] /\
   @world_after _ relay silent_callback []
     = [ "Hello world 2, printed in C, callback = %p.\n";
         "hello_world_c_2_fn callback; ret2 = %d.\n";
         "Hello world 2, printed in C, %s.\n";
         "hello_world_rust_2_fn; ret2 = %d.\n" ]).
Proof.
  split.
  - intros cb w'. reflexivity.
  - split; [reflexivity|].
    apply (@rust_calls_static_callback _ relay silent_callback [] "from Rust").
    intros cb w'. reflexivity.
Defined.

End HelloWorldC2Spec.
